(** * binance-weight-exporter: a shallow embedding of the two exporters

    The repository holds two near-duplicate programs.  [main.go] probes the
    upstream API inside every scrape and emits the gauges straight from the
    response (module [Stateless]).  The second program keeps the last
    observation in the collector ([lastWeight], [isUp]) and either probes on
    every scrape or leaves probing to a task scheduled once a minute, as the
    [auto-scrape] flag says (module [Cached]).

    The Go standard library and the Prometheus client are not part of the
    repository; the pieces the collectors call ([strconv.ParseFloat],
    [http.Header.Get], [prometheus.BuildFQName], ...) are modelled after
    their documented behaviour in the first half of the file.  The network
    ([http.NewRequest], [client.Do]) and the clock are inputs: a [World]. *)

From Stdlib Require Import ZArith String Ascii List Bool.
From Stdlib Require Import Floats.SpecFloat.
From stdpp Require Import gmap strings.
Import ListNotations.

Local Open Scope string_scope.
Local Open Scope Z_scope.

(** ** float64 *)

(** Go's [float64] is IEEE 754 binary64: 53 bits of precision, infinities at
    exponent 1024.  Values are the standard library's [spec_float]. *)
Module Float64.

Definition prec : Z := 53.
Definition emax : Z := 1024.

Definition float64 : Set := spec_float.

Definition zero : float64 := S754_zero false.
Definition one : float64 := binary_normalize prec emax 1 0 false.
Definition Inf (neg : bool) : float64 := S754_infinity neg.
Definition NaN : float64 := S754_nan.

(** The Go operator [==] on floats: [NaN] differs from everything,
    [+0 == -0]. *)
Definition eqb (x y : float64) : bool := SFeqb x y.

(** [m * 2^e], rounded to nearest, ties to even. *)
Definition of_binary (neg : bool) (m : Z) (e : Z) : float64 :=
  binary_normalize prec emax (if neg then - m else m) e neg.

(** [m * 10^e], rounded once, to nearest, ties to even. *)
Definition of_decimal (neg : bool) (m : Z) (e : Z) : float64 :=
  if m =? 0 then S754_zero neg
  else if 0 <=? e then of_binary neg (m * 10 ^ e) 0
  else
    let '(q, e', l) := SFdiv_core_binary prec emax m 0 (10 ^ (- e)) 0 in
    binary_round_aux prec emax neg q e' l.

Definition is_inf (x : float64) : bool :=
  match x with S754_infinity _ => true | _ => false end.

End Float64.

Export Float64.

(** ** strconv *)

Module strconv.

(** The two causes a [*NumError] of [ParseFloat] can carry. *)
Inductive NumError : Set := ErrSyntax | ErrRange.

(** [lower(c)] of package strconv: [c | ('x' - 'X')], on every byte. *)
Definition lower (c : ascii) : ascii :=
  let '(Ascii b0 b1 b2 b3 b4 _ b6 b7) := c in Ascii b0 b1 b2 b3 b4 true b6 b7.

Definition byte (c : ascii) : Z := Z.of_N (N_of_ascii c).

Definition between (lo hi c : ascii) : bool :=
  (byte lo <=? byte c) && (byte c <=? byte hi).

Definition is_digit (c : ascii) : bool := between "0" "9" c.
Definition is_hex_letter (c : ascii) : bool := between "a" "f" (lower c).

Definition ascii_eqb (a b : ascii) : bool := Ascii.eqb a b.

(** [commonPrefixLenIgnoreCase(s, prefix)], [prefix] in lower case. *)
Fixpoint commonPrefixLenIgnoreCase (s prefix : string) : nat :=
  match s, prefix with
  | String c s', String p prefix' =>
      let c := if between "A" "Z" c then lower c else c in
      if ascii_eqb c p then S (commonPrefixLenIgnoreCase s' prefix') else O
  | _, _ => O
  end.

Fixpoint drop (n : nat) (s : string) : string :=
  match n, s with
  | O, _ => s
  | S n', String _ s' => drop n' s'
  | S _, EmptyString => EmptyString
  end.

Fixpoint take (n : nat) (s : string) : string :=
  match n, s with
  | S n', String c s' => String c (take n' s')
  | _, _ => EmptyString
  end.

(** [special(s)]: the value and the unread rest of [s] when [s] starts with
    a possibly signed infinity or with an unsigned NaN. *)
Definition special_inf (neg : bool) (s : string) : option (float64 * string) :=
  let n := commonPrefixLenIgnoreCase s "infinity" in
  let n := if (3 <? n)%nat && (n <? 8)%nat then 3%nat else n in
  if (n =? 3)%nat || (n =? 8)%nat then Some (Inf neg, drop n s) else None.

Definition special (s : string) : option (float64 * string) :=
  match s with
  | EmptyString => None
  | String c s' =>
      if ascii_eqb c "+" then special_inf false s'
      else if ascii_eqb c "-" then special_inf true s'
      else if ascii_eqb c "i" || ascii_eqb c "I" then special_inf false s
      else if ascii_eqb c "n" || ascii_eqb c "N" then
        if (commonPrefixLenIgnoreCase s "nan" =? 3)%nat
        then Some (NaN, drop 3 s) else None
      else None
  end.

(** The state of the mantissa loop of [readFloat].  [mant] keeps every
    significant digit; the Go code keeps the first 19 (16 in base 16) in a
    [uint64] and a [trunc] flag for the rest, and falls back to an exact
    conversion when they do not decide the rounding, so that the value
    returned is the one nearest to the number written. *)
Record mantissa : Set := Mantissa {
  mant : Z;
  nd : Z;
  dp : Z;
  sawdot : bool;
  sawdigits : bool;
  underscores : bool
}.

Definition mantissa0 : mantissa := Mantissa 0 0 0 false false false.

Definition digit_value (c : ascii) : Z :=
  if is_digit c then byte c - byte "0" else byte (lower c) - byte "a" + 10.

Fixpoint read_mantissa (hex : bool) (st : mantissa) (s : string)
  : mantissa * string :=
  match s with
  | EmptyString => (st, s)
  | String c s' =>
      let '(Mantissa m n d dot dig us) := st in
      if ascii_eqb c "_" then read_mantissa hex (Mantissa m n d dot dig true) s'
      else if ascii_eqb c "." then
        if dot then (st, s)
        else read_mantissa hex (Mantissa m n n true dig us) s'
      else if is_digit c then
        if ascii_eqb c "0" && (n =? 0)
        then read_mantissa hex (Mantissa m n (d - 1) dot true us) s'
        else read_mantissa hex
               (Mantissa (m * (if hex then 16 else 10) + digit_value c)
                         (n + 1) d dot true us) s'
      else if hex && is_hex_letter c then
        read_mantissa hex (Mantissa (m * 16 + digit_value c) (n + 1) d dot true us) s'
      else (st, s)
  end.

(** The digits of the exponent; the accumulator stops growing at 10000. *)
Fixpoint read_exponent (e : Z) (us : bool) (s : string) : Z * bool * string :=
  match s with
  | EmptyString => (e, us, s)
  | String c s' =>
      if ascii_eqb c "_" then read_exponent e true s'
      else if is_digit c then
        read_exponent (if e <? 10000 then e * 10 + (byte c - byte "0") else e) us s'
      else (e, us, s)
  end.

(** [underscoreOK(s)]: underscores only between digits, or between a base
    prefix and a digit.  [saw] is the class of the last byte:
    a digit, an underscore, or anything else (the start counts as else). *)
Inductive seen : Set := SawDigit | SawUnderscore | SawOther.

Fixpoint underscore_loop (hex : bool) (saw : seen) (s : string) : bool :=
  match s with
  | EmptyString => match saw with SawUnderscore => false | _ => true end
  | String c s' =>
      if is_digit c || (hex && is_hex_letter c) then underscore_loop hex SawDigit s'
      else if ascii_eqb c "_" then
        match saw with
        | SawDigit => underscore_loop hex SawUnderscore s'
        | _ => false
        end
      else
        match saw with
        | SawUnderscore => false
        | _ => underscore_loop hex SawOther s'
        end
  end.

Definition underscoreOK (s : string) : bool :=
  let s := match s with
           | String c s' => if ascii_eqb c "-" || ascii_eqb c "+" then s' else s
           | EmptyString => s
           end in
  match s with
  | String c0 (String c1 s') =>
      if ascii_eqb c0 "0"
         && (ascii_eqb (lower c1) "b" || ascii_eqb (lower c1) "o" || ascii_eqb (lower c1) "x")
      then underscore_loop (ascii_eqb (lower c1) "x") SawDigit s'
      else underscore_loop false SawOther s
  | _ => underscore_loop false SawOther s
  end.

(** What [readFloat] hands to the conversion: sign, digits, the exponent of
    the base ([10], or [2] for a hexadecimal mantissa) and the unread rest. *)
Record scanned : Set := Scanned {
  neg : bool;
  hex : bool;
  digits : Z;
  exp : Z;
  rest : string
}.

Definition readFloat (s : string) : option scanned :=
  match s with
  | EmptyString => None
  | String c0 s0 =>
      let '(neg, s1) :=
        if ascii_eqb c0 "+" then (false, s0)
        else if ascii_eqb c0 "-" then (true, s0)
        else (false, s) in
      let '(hex, s2) :=
        match s1 with
        | String z (String x (String c s')) =>
            if ascii_eqb z "0" && ascii_eqb (lower x) "x"
            then (true, String c s') else (false, s1)
        | _ => (false, s1)
        end in
      let '(Mantissa m n d dot dig us, s3) := read_mantissa hex mantissa0 s2 in
      if negb dig then None
      else
        let d := if dot then d else n in
        let d := if hex then d * 4 else d in
        let n := if hex then n * 4 else n in
        let expChar : ascii := (if hex then "p" else "e")%char in
        let finish (d : Z) (us : bool) (s4 : string) : option scanned :=
          let consumed := take (String.length s - String.length s4) s in
          if us && negb (underscoreOK consumed) then None
          else Some (Scanned neg hex m (if m =? 0 then 0 else d - n) s4) in
        match s3 with
        | String c s4 =>
            if ascii_eqb (lower c) expChar then
              match s4 with
              | EmptyString => None
              | String c' s5 =>
                  let '(esign, s6) :=
                    if ascii_eqb c' "+" then (1, s5)
                    else if ascii_eqb c' "-" then (-1, s5)
                    else (1, s4) in
                  match s6 with
                  | String c'' _ =>
                      if is_digit c'' then
                        let '(e, us, s7) := read_exponent 0 us s6 in
                        finish (d + e * esign) us s7
                      else None
                  | EmptyString => None
                  end
              end
            else if hex then None
            else finish d us s3
        | EmptyString => if hex then None else finish d us s3
        end
  end.

(** [atof64(s)]: value, unread rest, error. *)
Definition atof64 (s : string) : float64 * string * option NumError :=
  match special s with
  | Some (v, r) => (v, r, None)
  | None =>
      match readFloat s with
      | None => (zero, s, Some ErrSyntax)
      | Some (Scanned neg hex m e r) =>
          let f := if hex then of_binary neg m e else of_decimal neg m e in
          (f, r, if is_inf f then Some ErrRange else None)
      end
  end.

(** [ParseFloat(s, 64)].  Anything left unread is a syntax error, and a
    syntax error always comes with the value [0]; a number too large for a
    [float64] comes back as an infinity with [ErrRange]. *)
Definition ParseFloat (s : string) : float64 * option NumError :=
  let '(f, r, err) := atof64 s in
  match r, err with
  | EmptyString, _ => (f, err)
  | _, Some ErrSyntax => (f, err)
  | _, _ => (zero, Some ErrSyntax)
  end.

End strconv.

(** ** net/textproto and net/http *)

Module http.

(** Go's [error]: what [Error()] prints. *)
Definition error : Type := string.

(** [validHeaderFieldByte]: the token bytes of RFC 7230. *)
Definition validHeaderFieldByte (c : ascii) : bool :=
  strconv.between "a" "z" c || strconv.between "A" "Z" c
  || strconv.between "0" "9" c
  || existsb (Ascii.eqb c) (list_ascii_of_string "!#$%&'*+-.^_`|~").

Definition upper_byte (c : ascii) : ascii :=
  let '(Ascii b0 b1 b2 b3 b4 _ b6 b7) := c in Ascii b0 b1 b2 b3 b4 false b6 b7.

(** The loop of [canonicalMIMEHeaderKey]: upper case at the start and after
    each dash, lower case elsewhere. *)
Fixpoint canonical_loop (upper : bool) (s : string) : string :=
  match s with
  | EmptyString => EmptyString
  | String c s' =>
      let c := if upper && strconv.between "a" "z" c then upper_byte c
               else if negb upper && strconv.between "A" "Z" c then strconv.lower c
               else c in
      String c (canonical_loop (Ascii.eqb c "-") s')
  end.

(** [textproto.CanonicalMIMEHeaderKey]: a key holding a byte that is not a
    token byte is returned as it is. *)
Definition CanonicalMIMEHeaderKey (s : string) : string :=
  if forallb validHeaderFieldByte (list_ascii_of_string s)
  then canonical_loop true s else s.

(** [http.Header] is [textproto.MIMEHeader], that is [map[string][]string];
    the transport stores the keys of a response in canonical form. *)
Abbreviation MIMEHeader := (gmap string (list string)).

Definition Get (h : MIMEHeader) (key : string) : string :=
  match h !! CanonicalMIMEHeaderKey key with
  | Some (v :: _) => v
  | _ => EmptyString
  end.

Definition Add (key value : string) (h : MIMEHeader) : MIMEHeader :=
  let k := CanonicalMIMEHeaderKey key in
  <[k := (default [] (h !! k) ++ [value])%list]> h.

Definition Set_ (key value : string) (h : MIMEHeader) : MIMEHeader :=
  <[CanonicalMIMEHeaderKey key := [value]]> h.


Record Request : Type := { Method : string; URL : string }.

Record Response : Type := {
  StatusCode : Z;
  Header : MIMEHeader;
  Body : string
}.

End http.

(** ** prometheus *)

Module prometheus.

Record Desc : Set := { fqName : string; help : string }.

Definition is_empty (s : string) : bool :=
  match s with EmptyString => true | _ => false end.

Definition BuildFQName (namespace subsystem name : string) : string :=
  if is_empty name then EmptyString
  else if negb (is_empty namespace) && negb (is_empty subsystem)
       then namespace +:+ "_" +:+ subsystem +:+ "_" +:+ name
  else if negb (is_empty namespace) then namespace +:+ "_" +:+ name
  else if negb (is_empty subsystem) then subsystem +:+ "_" +:+ name
  else name.

(** [NewDesc(fqName, help, nil, nil)]: no variable and no constant labels,
    so a constant metric of it takes no label value. *)
Definition NewDesc (fqName help : string) : Desc :=
  {| fqName := fqName; help := help |}.

Inductive ValueType : Set := CounterValue | GaugeValue | UntypedValue.

Record Metric : Type := { desc : Desc; valueType : ValueType; value : float64 }.

Definition MustNewConstMetric (d : Desc) (t : ValueType) (v : float64) : Metric :=
  {| desc := d; valueType := t; value := v |}.

End prometheus.

Export http prometheus.

(** ** The world and the effects of a run *)

(** What the collectors get from outside: [http.NewRequest] (it fails on a
    URL that does not parse), [client.Do], and the clock as [time.Now()]
    prints it. *)
Record World : Type := {
  http_NewRequest : string -> string -> Request + error;
  client_Do : Request -> Response + error;
  time_Now : string
}.

(** What a run does that can be seen from outside, in order. *)
Inductive event : Type :=
| Log (line : string)          (* a line written by package log *)
| HttpDo (req : Request)       (* a request handed to [client.Do] *)
| Send (m : Metric)            (* [ch <- m] *)
| BodyClose.                   (* [resp.Body.Close()] *)

(** A call returns, or the process is gone ([os.Exit]). *)
Inductive outcome (A : Type) : Type :=
| Returned (a : A)
| Exited (status : Z).

Arguments Returned {A} a.
Arguments Exited {A} status.

Definition prog (A : Type) : Type := list event * outcome A.

Definition trace {A} (p : prog A) : list event := p.1.
Definition result {A} (p : prog A) : outcome A := p.2.

#[global] Instance prog_ret : MRet prog := fun A a => ([], Returned a).

#[global] Instance prog_bind : MBind prog := fun A B k p =>
  match p.2 with
  | Returned a => ((p.1 ++ (k a).1)%list, (k a).2)
  | Exited n => (p.1, Exited n)
  end.

Definition emit (e : event) : prog unit := ([e], Returned tt).

Definition log_Println (line : string) : prog unit := emit (Log line).
Definition log_Print (line : string) : prog unit := emit (Log line).

(** [log.Fatal]: [Print] followed by [os.Exit(1)]. *)
Definition log_Fatal {A} (line : string) : prog A := ([Log line], Exited 1).

Definition send (m : Metric) : prog unit := emit (Send m).

Definition Do (w : World) (req : Request) : prog (Response + error) :=
  emit (HttpDo req) ;; mret (client_Do w req).

(** The metrics a trace put on the channel, and the requests it made. *)
Definition sent (t : list event) : list Metric :=
  omap (fun e => match e with Send m => Some m | _ => None end) t.

Definition probes (t : list event) : list Request :=
  omap (fun e => match e with HttpDo r => Some r | _ => None end) t.


Definition namespace : string := "binance".

(** The only kind of metric the collectors build. *)
Definition gauge (d : Desc) (v : float64) : Metric := MustNewConstMetric d GaugeValue v.

(** ** main.go: probe inside the scrape *)

Module Stateless.

Definition cheapRequest : string := "/api/v3/klines?symbol=BTCUSDT&interval=1m".

Record WeightCollector : Set := {
  up : Desc;
  weightUsed : Desc;
  weightUsedMinute : Desc;
  binanceEndpoint : string
}.

Definition NewCollector (binanceEndpoint : string) : WeightCollector :=
  {| binanceEndpoint := binanceEndpoint;
     up := NewDesc (BuildFQName namespace EmptyString "up")
             "Was the last Binance API query successful.";
     weightUsed := NewDesc (BuildFQName namespace EmptyString "weight_used")
             "Weight used (MBX-USED-WEIGHT).";
     weightUsedMinute := NewDesc (BuildFQName namespace EmptyString "weight_used_1m")
             "Weight used per minmute (MBX-USED-WEIGHT-1M)." |}.

Definition Describe (c : WeightCollector) : list Desc :=
  [up c; weightUsed c; weightUsedMinute c].

Definition HitBinanceRestApisAndUpdateMetrics (w : World) (c : WeightCollector)
  : prog unit :=
  match http_NewRequest w "GET" (binanceEndpoint c +:+ cheapRequest) with
  | inr err => log_Fatal err
  | inl req =>
      r ← Do w req;
      match r with
      | inr err =>
          log_Print err ;;
          send (MustNewConstMetric (up c) GaugeValue zero)
      | inl resp =>
          send (MustNewConstMetric (up c) GaugeValue one) ;;
          let weight_used :=
            (strconv.ParseFloat (Get (Header resp) "x-mbx-used-weight")).1 in
          send (MustNewConstMetric (weightUsed c) GaugeValue weight_used) ;;
          let weight_used_1m :=
            (strconv.ParseFloat (Get (Header resp) "x-mbx-used-weight-1m")).1 in
          send (MustNewConstMetric (weightUsedMinute c) GaugeValue weight_used_1m) ;;
          log_Println "Endpoint scraped"
      end
  end.

Definition Collect (w : World) (c : WeightCollector) : prog unit :=
  HitBinanceRestApisAndUpdateMetrics w c.

End Stateless.

(** ** The second program: probe into the collector, scrape out of it *)

Module Cached.

Definition endpoint : string := "https://api.binance.com".
Definition cheapRequest : string := "/api/v3/ping".

Record WeightCollector : Set := {
  up : Desc;
  weightUsed : Desc;
  weightUsedMinute : Desc;
  binanceEndpoint : string;
  lastWeight : float64;
  isUp : float64
}.

Definition NewCollector (binanceEndpoint : string) : WeightCollector :=
  {| binanceEndpoint := binanceEndpoint;
     lastWeight := zero;
     isUp := zero;
     up := NewDesc (BuildFQName namespace EmptyString "up")
             "Was the last Binance API query successful.";
     weightUsed := NewDesc (BuildFQName namespace EmptyString "weight_used")
             "Weight used (MBX-USED-WEIGHT).";
     weightUsedMinute := NewDesc (BuildFQName namespace EmptyString "weight_used_1m")
             "Weight used per minmute (MBX-USED-WEIGHT-1M)." |}.

Definition Describe (c : WeightCollector) : list Desc :=
  [up c; weightUsed c; weightUsedMinute c].

(** The two assignments of the code, [c.isUp = v] and [c.lastWeight = v]. *)
Definition set_isUp (v : float64) (c : WeightCollector) : WeightCollector :=
  {| up := up c; weightUsed := weightUsed c; weightUsedMinute := weightUsedMinute c;
     binanceEndpoint := binanceEndpoint c; lastWeight := lastWeight c; isUp := v |}.

Definition set_lastWeight (v : float64) (c : WeightCollector) : WeightCollector :=
  {| up := up c; weightUsed := weightUsed c; weightUsedMinute := weightUsedMinute c;
     binanceEndpoint := binanceEndpoint c; lastWeight := v; isUp := isUp c |}.

Definition RequestWeight (w : World) (c : WeightCollector) : prog WeightCollector :=
  log_Println ("Weight requested at " +:+ time_Now w) ;;
  match http_NewRequest w "GET" (binanceEndpoint c +:+ cheapRequest) with
  | inr err => log_Fatal err
  | inl req =>
      r ← Do w req;
      match r with
      | inr err =>
          log_Print err ;;
          mret (set_isUp zero c)
      | inl resp =>
          let c := set_isUp one c in
          let c := set_lastWeight
                     (strconv.ParseFloat (Get (Header resp) "x-mbx-used-weight-1m")).1 c in
          emit BodyClose ;;
          mret c
      end
  end.

Definition UpdateMetrics (c : WeightCollector) : prog unit :=
  if Float64.eqb (isUp c) zero then
    send (MustNewConstMetric (up c) GaugeValue zero)
  else
    send (MustNewConstMetric (up c) GaugeValue one) ;;
    send (MustNewConstMetric (weightUsed c) GaugeValue (lastWeight c)) ;;
    send (MustNewConstMetric (weightUsedMinute c) GaugeValue (lastWeight c)) ;;
    log_Println "Endpoint scraped".

(** [autoScrape] is the flag [-auto-scrape]; the collector outlives the
    call, so [Collect] hands it back. *)
Definition Collect (autoScrape : bool) (w : World) (c : WeightCollector)
  : prog WeightCollector :=
  c ← (if negb autoScrape then RequestWeight w c else mret c);
  UpdateMetrics c ;;
  mret c.

(** What happens to a running exporter: a scrape of the metrics path, or,
    when [autoScrape] started the schedule in [main], the task firing.  The
    task and the scrape handlers are goroutines of their own and share the
    collector without a lock; here they take turns. *)
Inductive action : Type :=
| Scrape (w : World)
| Tick (w : World).

Definition step (autoScrape : bool) (c : WeightCollector) (a : action)
  : prog WeightCollector :=
  match a with
  | Scrape w => Collect autoScrape w c
  | Tick w => RequestWeight w c
  end.

Fixpoint run (autoScrape : bool) (c : WeightCollector) (acts : list action)
  : prog WeightCollector :=
  match acts with
  | [] => mret c
  | a :: acts' => c' ← step autoScrape c a; run autoScrape c' acts'
  end.

(** What each of a row of scrapes sends, one world per scrape, the collector
    handed on from one to the next. *)
Fixpoint scrapes (autoScrape : bool) (c : WeightCollector) (ws : list World)
  : list (list Metric) :=
  match ws with
  | [] => []
  | w :: ws' =>
      let p := Collect autoScrape w c in
      sent (trace p) ::
        match result p with
        | Returned c' => scrapes autoScrape c' ws'
        | Exited _ => []
        end
  end.

End Cached.

(** ** Sample worlds, for running the collectors *)

Module Sample.

(** [stringContainsCTLByte] of net/url: the first thing [url.Parse] rejects. *)
Definition stringContainsCTLByte (s : string) : bool :=
  existsb (fun c => (strconv.byte c <? 32) || (strconv.byte c =? 127))
          (list_ascii_of_string s).

(** [http.NewRequest] as far as it needs no URL grammar: an empty method
    stands for GET, and a URL with a control byte is refused (the error is
    named by its cause).  The collectors only ever ask for GET. *)
Definition NewRequest (method url : string) : Request + error :=
  if stringContainsCTLByte url
  then inr "net/url: invalid control character in URL"
  else inl {| Method := if is_empty method then "GET" else method; URL := url |}.

Definition world (do : Request -> Response + error) : World :=
  {| http_NewRequest := NewRequest; client_Do := do; time_Now := "2021-03-01 12:00:58" |}.

(** An upstream that answers every request with [status] and [h]. *)
Definition answering (status : Z) (h : MIMEHeader) : World :=
  world (fun _ => inl {| StatusCode := status; Header := h; Body := "{}" |}).

(** An upstream nobody listens on. *)
Definition refusing : World :=
  world (fun _ => inr "dial tcp 127.0.0.1:443: connect: connection refused").

Definition weights (w m : string) : MIMEHeader :=
  http.Add "X-MBX-USED-WEIGHT-1M" m (http.Add "X-MBX-USED-WEIGHT" w ∅).

(** The collectors as [main] builds them, and the requests they make. *)
Definition fresh : Stateless.WeightCollector :=
  Stateless.NewCollector "https://api.binance.com".

Definition cold : Cached.WeightCollector := Cached.NewCollector Cached.endpoint.

Definition klines : Request :=
  {| Method := "GET";
     URL := "https://api.binance.com/api/v3/klines?symbol=BTCUSDT&interval=1m" |}.

Definition ping : Request :=
  {| Method := "GET"; URL := "https://api.binance.com/api/v3/ping" |}.

Definition five_seven : World := answering 200 (weights "5" "7").

(** An upstream that is there and answers 503 without the weight headers. *)
Definition overloaded : World := answering 503 ∅.




(** A collector that has seen weight 42 and is up. *)
Definition warm : Cached.WeightCollector :=
  Cached.set_lastWeight (strconv.ParseFloat "42").1
    (Cached.set_isUp one (Cached.NewCollector Cached.endpoint)).

End Sample.

(** ** Vocabulary of the properties *)

(** The three gauges of an exporter that is up, with the weights read from
    the values [W] and [M] of the two headers. *)
Definition up_gauges (up used minute : Desc) (W M : string) : list Metric :=
  [gauge up one; gauge used (strconv.ParseFloat W).1; gauge minute (strconv.ParseFloat M).1].

(** The single gauge of an exporter that is down. *)
Definition down_gauges (up : Desc) : list Metric := [gauge up zero].





(** The same world, except that every request is answered with [resp]. *)
Definition answered_with (resp : Response) (w : World) : World :=
  {| http_NewRequest := http_NewRequest w;
     client_Do := fun _ => inl resp;
     time_Now := time_Now w |}.

(** How often a trace closes a response body. *)
Definition closes (t : list event) : nat :=
  length (omap (fun e => match e with BodyClose => Some tt | _ => None end) t).

(** Two collectors of the second program built alike: the same descriptors
    and the same endpoint, whatever they have observed. *)
Definition alike (c1 c2 : Cached.WeightCollector) : Prop :=
  Cached.up c1 = Cached.up c2
  /\ Cached.weightUsed c1 = Cached.weightUsed c2
  /\ Cached.weightUsedMinute c1 = Cached.weightUsedMinute c2
  /\ Cached.binanceEndpoint c1 = Cached.binanceEndpoint c2.

(** The actions that call [RequestWeight]: the task firing, and a scrape
    when the flag is off. *)
Definition probing (autoScrape : bool) (a : Cached.action) : bool :=
  match a with
  | Cached.Tick _ => true
  | Cached.Scrape _ => negb autoScrape
  end.

Definition is_tick (a : Cached.action) : bool :=
  match a with Cached.Tick _ => true | Cached.Scrape _ => false end.

(** What [isUp] holds in every collector a run can reach. *)
Definition flag_like (v : float64) : Prop := v = zero \/ v = one.

(** * Properties *)

(** ** strconv *)

Example ParseFloat_42 :
  strconv.ParseFloat "42" = (S754_finite false 5910974510923776 (-47), None).
Proof. reflexivity. Qed.

Example ParseFloat_tenth :
  strconv.ParseFloat "0.1" = (S754_finite false 7205759403792794 (-56), None).
Proof. reflexivity. Qed.

Example ParseFloat_largest :
  strconv.ParseFloat "1.7976931348623158e308"
  = (S754_finite false 9007199254740991 971, None).
Proof. vm_compute. reflexivity. Qed.

Example ParseFloat_beyond :
  strconv.ParseFloat "1.797693134862315808e308" = (Inf false, Some strconv.ErrRange).
Proof. vm_compute. reflexivity. Qed.

Example ParseFloat_empty : strconv.ParseFloat EmptyString = (zero, Some strconv.ErrSyntax).
Proof. reflexivity. Qed.

Example ParseFloat_separators :
  strconv.ParseFloat "1_000" = strconv.ParseFloat "1000"
  /\ strconv.ParseFloat "1__0" = (zero, Some strconv.ErrSyntax).
Proof. split; reflexivity. Qed.


(** ** float64 *)

Lemma eqb_zero_zero : Float64.eqb zero zero = true.
Proof. reflexivity. Qed.

Lemma eqb_one_zero : Float64.eqb one zero = false.
Proof. reflexivity. Qed.

Lemma one_neq_zero : one <> zero.
Proof. discriminate. Qed.

(** ** net/http *)


Lemma Get_Set (h : MIMEHeader) (key v : string) : Get (Set_ key v h) key = v.
Proof. unfold Get, Set_. rewrite lookup_insert_eq. reflexivity. Qed.



(** Header names are matched whatever their case. *)
Example Get_any_case :
  Get (Sample.weights "5" "7") "x-mbx-used-weight" = "5"
  /\ Get (Sample.weights "5" "7") "x-mbx-used-weight-1m" = "7"
  /\ Get (Sample.weights "5" "7") "X-Mbx-Used-Weight" = "5".
Proof. repeat split; vm_compute; reflexivity. Qed.

(** ** The two probes, step by step *)

#[local] Arguments strconv.ParseFloat : simpl never.
#[local] Arguments Get : simpl never.
#[local] Arguments one : simpl never.
#[local] Arguments String.append : simpl never.

Ltac run_prog :=
  unfold mbind, prog_bind, mret, prog_ret, Do, send, log_Print, log_Println,
    log_Fatal, emit; cbn.

Section StatelessRuns.
Import Stateless.
Variables (w : World) (c : WeightCollector).

Lemma Hit_unbuilt (err : error) :
  http_NewRequest w "GET" (binanceEndpoint c +:+ cheapRequest) = inr err ->
  HitBinanceRestApisAndUpdateMetrics w c = ([Log err], Exited 1).
Proof.
  intros Hreq. unfold HitBinanceRestApisAndUpdateMetrics.
  rewrite Hreq. reflexivity.
Qed.

Lemma Hit_failed (req : Request) (err : error) :
  http_NewRequest w "GET" (binanceEndpoint c +:+ cheapRequest) = inl req ->
  client_Do w req = inr err ->
  HitBinanceRestApisAndUpdateMetrics w c
  = ([HttpDo req; Log err; Send (gauge (up c) zero)], Returned tt).
Proof.
  intros Hreq Hdo. unfold HitBinanceRestApisAndUpdateMetrics.
  rewrite Hreq. run_prog. rewrite Hdo. reflexivity.
Qed.

Lemma Hit_answered (req : Request) (resp : Response) :
  http_NewRequest w "GET" (binanceEndpoint c +:+ cheapRequest) = inl req ->
  client_Do w req = inl resp ->
  HitBinanceRestApisAndUpdateMetrics w c
  = ([HttpDo req;
      Send (gauge (up c) one);
      Send (gauge (weightUsed c) (strconv.ParseFloat (Get (Header resp) "x-mbx-used-weight")).1);
      Send (gauge (weightUsedMinute c)
              (strconv.ParseFloat (Get (Header resp) "x-mbx-used-weight-1m")).1);
      Log "Endpoint scraped"], Returned tt).
Proof.
  intros Hreq Hdo. unfold HitBinanceRestApisAndUpdateMetrics.
  rewrite Hreq. run_prog. rewrite Hdo. reflexivity.
Qed.

End StatelessRuns.

Section CachedRuns.
Import Cached.
Variables (w : World) (c : WeightCollector).

Lemma RequestWeight_unbuilt (err : error) :
  http_NewRequest w "GET" (binanceEndpoint c +:+ cheapRequest) = inr err ->
  RequestWeight w c = ([Log ("Weight requested at " +:+ time_Now w); Log err], Exited 1).
Proof.
  intros Hreq. unfold RequestWeight. rewrite Hreq. reflexivity.
Qed.

Lemma RequestWeight_failed (req : Request) (err : error) :
  http_NewRequest w "GET" (binanceEndpoint c +:+ cheapRequest) = inl req ->
  client_Do w req = inr err ->
  RequestWeight w c
  = ([Log ("Weight requested at " +:+ time_Now w); HttpDo req; Log err],
     Returned (set_isUp zero c)).
Proof.
  intros Hreq Hdo. unfold RequestWeight. rewrite Hreq.
  run_prog. rewrite Hdo. reflexivity.
Qed.

Lemma RequestWeight_answered (req : Request) (resp : Response) :
  http_NewRequest w "GET" (binanceEndpoint c +:+ cheapRequest) = inl req ->
  client_Do w req = inl resp ->
  RequestWeight w c
  = ([Log ("Weight requested at " +:+ time_Now w); HttpDo req; BodyClose],
     Returned (set_lastWeight
                 (strconv.ParseFloat (Get (Header resp) "x-mbx-used-weight-1m")).1
                 (set_isUp one c))).
Proof.
  intros Hreq Hdo. unfold RequestWeight. rewrite Hreq.
  run_prog. rewrite Hdo. reflexivity.
Qed.

Lemma UpdateMetrics_down :
  Float64.eqb (isUp c) zero = true ->
  UpdateMetrics c = ([Send (gauge (up c) zero)], Returned tt).
Proof. intros H. unfold UpdateMetrics. rewrite H. reflexivity. Qed.

Lemma UpdateMetrics_up :
  Float64.eqb (isUp c) zero = false ->
  UpdateMetrics c
  = ([Send (gauge (up c) one); Send (gauge (weightUsed c) (lastWeight c));
      Send (gauge (weightUsedMinute c) (lastWeight c)); Log "Endpoint scraped"], Returned tt).
Proof. intros H. unfold UpdateMetrics. rewrite H. reflexivity. Qed.

(** A scrape under [-auto-scrape] is [UpdateMetrics] and nothing else. *)
Lemma Collect_auto (w' : World) :
  Collect true w' c = (trace (UpdateMetrics c), Returned c).
Proof.
  unfold Collect, UpdateMetrics. run_prog.
  destruct (Float64.eqb (isUp c) zero); reflexivity.
Qed.

(** A scrape without it runs [RequestWeight] first. *)
Lemma Collect_probing c' t :
  RequestWeight w c = (t, Returned c') ->
  Collect false w c = ((t ++ trace (UpdateMetrics c'))%list, Returned c').
Proof.
  intros H. unfold Collect. cbn [negb]. rewrite H.
  unfold UpdateMetrics. run_prog.
  destruct (Float64.eqb (isUp c') zero); cbn; rewrite ?app_nil_r; reflexivity.
Qed.

Lemma Collect_exiting t n :
  RequestWeight w c = (t, Exited n) -> Collect false w c = (t, Exited n).
Proof. intros H. unfold Collect. cbn [negb]. rewrite H. reflexivity. Qed.

End CachedRuns.

(** The probes by cases on what the world answers. *)
Lemma Hit_cases (w : World) (c : Stateless.WeightCollector) :
  Stateless.HitBinanceRestApisAndUpdateMetrics w c
  = match http_NewRequest w "GET"
            (Stateless.binanceEndpoint c +:+ Stateless.cheapRequest) with
    | inr err => ([Log err], Exited 1)
    | inl req =>
        match client_Do w req with
        | inr err => ([HttpDo req; Log err; Send (gauge (Stateless.up c) zero)], Returned tt)
        | inl resp =>
            ([HttpDo req;
              Send (gauge (Stateless.up c) one);
              Send (gauge (Stateless.weightUsed c)
                      (strconv.ParseFloat (Get (Header resp) "x-mbx-used-weight")).1);
              Send (gauge (Stateless.weightUsedMinute c)
                      (strconv.ParseFloat (Get (Header resp) "x-mbx-used-weight-1m")).1);
              Log "Endpoint scraped"], Returned tt)
        end
    end.
Proof.
  destruct (http_NewRequest w "GET" _) as [req | err] eqn:Hreq.
  - destruct (client_Do w req) as [resp | err] eqn:Hdo.
    + apply Hit_answered; assumption.
    + apply Hit_failed; assumption.
  - apply Hit_unbuilt; assumption.
Qed.

Lemma RequestWeight_cases (w : World) (c : Cached.WeightCollector) :
  Cached.RequestWeight w c
  = match http_NewRequest w "GET" (Cached.binanceEndpoint c +:+ Cached.cheapRequest) with
    | inr err => ([Log ("Weight requested at " +:+ time_Now w); Log err], Exited 1)
    | inl req =>
        match client_Do w req with
        | inr err =>
            ([Log ("Weight requested at " +:+ time_Now w); HttpDo req; Log err],
             Returned (Cached.set_isUp zero c))
        | inl resp =>
            ([Log ("Weight requested at " +:+ time_Now w); HttpDo req; BodyClose],
             Returned (Cached.set_lastWeight
                         (strconv.ParseFloat (Get (Header resp) "x-mbx-used-weight-1m")).1
                         (Cached.set_isUp one c)))
        end
    end.
Proof.
  destruct (http_NewRequest w "GET" _) as [req | err] eqn:Hreq.
  - destruct (client_Do w req) as [resp | err] eqn:Hdo.
    + apply RequestWeight_answered; assumption.
    + apply RequestWeight_failed; assumption.
  - apply RequestWeight_unbuilt; assumption.
Qed.

(** A scrape that probes: the probe, then, if the process is still there,
    [UpdateMetrics] on the collector the probe has left. *)
Lemma Collect_sync (w : World) (c : Cached.WeightCollector) :
  Cached.Collect false w c
  = ((trace (Cached.RequestWeight w c)
      ++ match result (Cached.RequestWeight w c) with
         | Returned c' => trace (Cached.UpdateMetrics c')
         | Exited _ => []
         end)%list,
     result (Cached.RequestWeight w c)).
Proof.
  destruct (Cached.RequestWeight w c) as [t [c' | n]] eqn:H.
  - apply Collect_probing; assumption.
  - rewrite (Collect_exiting w c t n H). cbn. rewrite app_nil_r. reflexivity.
Qed.

(** ** What a scrape shows after a probe *)

Lemma sent_app (t1 t2 : list event) : sent (t1 ++ t2) = (sent t1 ++ sent t2)%list.
Proof. apply omap_app. Qed.

Lemma probes_app (t1 t2 : list event) : probes (t1 ++ t2) = (probes t1 ++ probes t2)%list.
Proof. apply omap_app. Qed.





(** ** Transport failures *)



(** C3.  A probe of the second program whose [client.Do] fails changes one
    field of the collector: [isUp] becomes 0.  [lastWeight] is what it was,
    and so are the descriptors and the endpoint. *)
Theorem failed_probe_keeps_weight
  (w : World) (c : Cached.WeightCollector) (req : Request) (err : error)
  (Hreq : http_NewRequest w "GET"
            (Cached.binanceEndpoint c +:+ Cached.cheapRequest) = inl req)
  (Hdo : client_Do w req = inr err) :
  exists c', result (Cached.RequestWeight w c) = Returned c'
    /\ Cached.lastWeight c' = Cached.lastWeight c
    /\ Cached.isUp c' = zero
    /\ Cached.up c' = Cached.up c
    /\ Cached.weightUsed c' = Cached.weightUsed c
    /\ Cached.weightUsedMinute c' = Cached.weightUsedMinute c
    /\ Cached.binanceEndpoint c' = Cached.binanceEndpoint c.
Proof.
  exists (Cached.set_isUp zero c).
  rewrite (RequestWeight_failed w c req err Hreq Hdo).
  repeat split.
Qed.

Lemma failed_probe_keeps_weight_witness :
  exists c', result (Cached.RequestWeight Sample.refusing Sample.warm) = Returned c'
    /\ Cached.lastWeight c' = Cached.lastWeight Sample.warm
    /\ Cached.isUp c' = zero
    /\ Cached.up c' = Cached.up Sample.warm
    /\ Cached.weightUsed c' = Cached.weightUsed Sample.warm
    /\ Cached.weightUsedMinute c' = Cached.weightUsedMinute Sample.warm
    /\ Cached.binanceEndpoint c' = Cached.binanceEndpoint Sample.warm.
Proof.
  apply (failed_probe_keeps_weight Sample.refusing Sample.warm Sample.ping
           "dial tcp 127.0.0.1:443: connect: connection refused");
    reflexivity.
Defined.

(** The weight a failed probe keeps is the one parsed before, here 42. *)
Example warm_probe_refused :
  Cached.RequestWeight Sample.refusing Sample.warm
  = ([Log "Weight requested at 2021-03-01 12:00:58";
      HttpDo Sample.ping;
      Log "dial tcp 127.0.0.1:443: connect: connection refused"],
     Returned (Cached.set_isUp zero Sample.warm))
  /\ Cached.lastWeight (Cached.set_isUp zero Sample.warm)
     = S754_finite false 5910974510923776 (-47).
Proof. split; reflexivity. Qed.


(** ** Answers of any status *)



(** A 503 without the headers: up, and both weights 0. *)
Example overloaded_scrape :
  sent (trace (Stateless.Collect Sample.overloaded Sample.fresh))
  = [gauge (Stateless.up Sample.fresh) one;
     gauge (Stateless.weightUsed Sample.fresh) zero;
     gauge (Stateless.weightUsedMinute Sample.fresh) zero].
Proof. reflexivity. Qed.

(** ** When the process exits *)



(** ** Who probes *)


(** ** Before the first probe *)

(** C7.  The collector [NewCollector] builds holds [isUp = 0] and
    [lastWeight = 0]; a scrape that reads it without probing sends the [up]
    gauge with value 0 and no weight gauge, and leaves it as it is. *)
Theorem fresh_collector_is_down (binanceEndpoint : string) (w : World) :
  Cached.isUp (Cached.NewCollector binanceEndpoint) = zero
  /\ Cached.lastWeight (Cached.NewCollector binanceEndpoint) = zero
  /\ sent (trace (Cached.UpdateMetrics (Cached.NewCollector binanceEndpoint)))
     = down_gauges (NewDesc "binance_up" "Was the last Binance API query successful.")
  /\ sent (trace (Cached.Collect true w (Cached.NewCollector binanceEndpoint)))
     = down_gauges (NewDesc "binance_up" "Was the last Binance API query successful.")
  /\ result (Cached.Collect true w (Cached.NewCollector binanceEndpoint))
     = Returned (Cached.NewCollector binanceEndpoint).
Proof.
  rewrite Collect_auto. repeat split.
Qed.

(** ** Scrapes between two probes *)

(** C8.  Under [-auto-scrape] a scrape does not touch the collector and does
    not look at the world, so a row of scrapes with no probe in between
    sends the same gauges every time: those [UpdateMetrics] reads from the
    collector.  The collector after the row is the one before it, and no
    request has gone out. *)
Theorem scrapes_repeat (c : Cached.WeightCollector) (ws : list World) :
  Cached.scrapes true c ws
  = replicate (length ws) (sent (trace (Cached.UpdateMetrics c)))
  /\ result (Cached.run true c (Cached.Scrape <$> ws)) = Returned c
  /\ probes (trace (Cached.run true c (Cached.Scrape <$> ws))) = []
  /\ sent (trace (Cached.run true c (Cached.Scrape <$> ws)))
     = concat (Cached.scrapes true c ws).
Proof.
  assert (Hnone : probes (trace (Cached.UpdateMetrics c)) = []).
  { unfold Cached.UpdateMetrics.
    destruct (Float64.eqb (Cached.isUp c) zero); reflexivity. }
  induction ws as [| w ws IH].
  - repeat split.
  - destruct IH as (IH1 & IH2 & IH3 & IH4).
    cbn [Cached.scrapes Cached.run fmap list_fmap Cached.step length replicate].
    rewrite Collect_auto. cbn [trace result fst snd].
    unfold mbind, prog_bind. cbn [fst snd].
    unfold result in IH2. unfold trace in IH3, IH4. rewrite IH2.
    cbn [trace result fst snd].
    rewrite probes_app, sent_app, Hnone, IH3, IH4, IH1.
    repeat split.
Qed.


(** ** Headers that cannot be read *)





(** ** One stored weight *)


Lemma UpdateMetrics_sent (c : Cached.WeightCollector) :
  sent (trace (Cached.UpdateMetrics c))
  = if Float64.eqb (Cached.isUp c) zero then down_gauges (Cached.up c)
    else [gauge (Cached.up c) one;
          gauge (Cached.weightUsed c) (Cached.lastWeight c);
          gauge (Cached.weightUsedMinute c) (Cached.lastWeight c)].
Proof.
  unfold Cached.UpdateMetrics.
  destruct (Float64.eqb (Cached.isUp c) zero); reflexivity.
Qed.



(** The two weight gauges of a scrape, 5 and 7 upstream: 7 and 7. *)
Example five_seven_scrape :
  value <$> sent (trace (Cached.Collect false Sample.five_seven Sample.cold))
  = [one; (strconv.ParseFloat "7").1; (strconv.ParseFloat "7").1]
  /\ value <$> sent (trace (Stateless.Collect Sample.five_seven Sample.fresh))
     = [one; (strconv.ParseFloat "5").1; (strconv.ParseFloat "7").1].
Proof. split; vm_compute; reflexivity. Qed.


(** ** The scenarios of a deployment *)

(** The task fires and is answered with weight 10; two scrapes follow while
    the upstream is gone.  Under [-auto-scrape] they never notice. *)
Example scheduled_then_scraped :
  Cached.scrapes true
    (Cached.set_lastWeight (strconv.ParseFloat "10").1 (Cached.set_isUp one Sample.cold))
    [Sample.refusing; Sample.refusing]
  = [up_gauges (Cached.up Sample.cold) (Cached.weightUsed Sample.cold)
       (Cached.weightUsedMinute Sample.cold) "10" "10";
     up_gauges (Cached.up Sample.cold) (Cached.weightUsed Sample.cold)
       (Cached.weightUsedMinute Sample.cold) "10" "10"]
  /\ result (Cached.run true Sample.cold
               [Cached.Tick (Sample.answering 200 (Sample.weights "10" "10"));
                Cached.Scrape Sample.refusing; Cached.Scrape Sample.refusing])
     = Returned (Cached.set_lastWeight (strconv.ParseFloat "10").1
                   (Cached.set_isUp one Sample.cold)).
Proof. split; vm_compute; reflexivity. Qed.

(** Without the flag the same two scrapes probe, fail, and report down. *)
Example refused_then_scraped :
  Cached.scrapes false Sample.warm [Sample.refusing; Sample.refusing]
  = [down_gauges (Cached.up Sample.warm); down_gauges (Cached.up Sample.warm)].
Proof. vm_compute. reflexivity. Qed.

(** * Further properties of the collectors *)

(** ** Describe and Collect *)

Lemma closes_app (t1 t2 : list event) : closes (t1 ++ t2) = (closes t1 + closes t2)%nat.
Proof. unfold closes. rewrite omap_app, length_app. reflexivity. Qed.

(** X1.  Whatever the world does, every metric a scrape of [main.go] sends
    is a gauge, and its descriptor is one of the three [Describe] announces. *)
Theorem stateless_collect_described (w : World) (c : Stateless.WeightCollector) :
  Forall (fun m => desc m ∈ Stateless.Describe c /\ valueType m = GaugeValue)
         (sent (trace (Stateless.Collect w c))).
Proof.
  unfold Stateless.Collect, Stateless.Describe. rewrite Hit_cases.
  destruct (http_NewRequest w "GET" _) as [req | err];
    [destruct (client_Do w req) as [resp | err] |]; cbn;
    repeat constructor; set_solver.
Qed.

(** X2.  The same for the second program, with or without [-auto-scrape] and
    from any collector: what [Collect] sends are gauges of the descriptors
    [Describe] announces. *)
Theorem cached_collect_described
  (autoScrape : bool) (w : World) (c : Cached.WeightCollector) :
  Forall (fun m => desc m ∈ Cached.Describe c /\ valueType m = GaugeValue)
         (sent (trace (Cached.Collect autoScrape w c))).
Proof.
  unfold Cached.Describe. destruct autoScrape.
  - rewrite Collect_auto. cbn [trace fst]. fold (trace (Cached.UpdateMetrics c)).
    rewrite UpdateMetrics_sent.
    destruct (Float64.eqb (Cached.isUp c) zero); repeat constructor; set_solver.
  - rewrite Collect_sync. cbn [trace fst]. rewrite sent_app, RequestWeight_cases.
    destruct (http_NewRequest w "GET" _) as [req | err];
      [destruct (client_Do w req) as [resp | err] |]; cbn [trace result fst snd].
    + rewrite UpdateMetrics_sent. cbn. repeat constructor; set_solver.
    + rewrite UpdateMetrics_sent. cbn. repeat constructor; set_solver.
    + cbn. constructor.
Qed.

(** X3.  The collectors [NewCollector] builds announce the same three series
    in both programs, whatever the endpoint, and no scrape sends two metrics
    of one series: not in [main.go], and not in the second program, in
    either mode and whatever a collector built that way has observed. *)
Theorem collector_series
  (e : string) (autoScrape : bool) (w : World) (c : Cached.WeightCollector)
  (Hc : alike c (Cached.NewCollector e)) :
  fqName <$> Stateless.Describe (Stateless.NewCollector e)
  = ["binance_up"; "binance_weight_used"; "binance_weight_used_1m"]
  /\ fqName <$> Cached.Describe c
     = ["binance_up"; "binance_weight_used"; "binance_weight_used_1m"]
  /\ NoDup (fqName <$> (desc <$> sent (trace (Stateless.Collect w (Stateless.NewCollector e)))))
  /\ NoDup (fqName <$> (desc <$> sent (trace (Cached.Collect autoScrape w c)))).
Proof.
  destruct Hc as (Hu & Hw & Hm & He).
  assert (Hnames : NoDup ["binance_up"; "binance_weight_used"; "binance_weight_used_1m"]).
  { apply (bool_decide_unpack _). vm_compute. exact I. }
  assert (Hone : NoDup ["binance_up"]) by apply NoDup_singleton.
  split; [reflexivity |].
  split; [unfold Cached.Describe; cbn; rewrite Hu, Hw, Hm; reflexivity |].
  split.
  - unfold Stateless.Collect. rewrite Hit_cases.
    destruct (http_NewRequest w "GET" _) as [req | err];
      [destruct (client_Do w req) as [resp | err] |]; cbn;
      [exact Hnames | exact Hone | constructor].
  - assert (Hscrape : forall c', Cached.up c' = Cached.up c ->
              Cached.weightUsed c' = Cached.weightUsed c ->
              Cached.weightUsedMinute c' = Cached.weightUsedMinute c ->
              NoDup (fqName <$> (desc <$> sent (trace (Cached.UpdateMetrics c'))))).
    { intros c' Hu' Hw' Hm'. rewrite UpdateMetrics_sent.
      destruct (Float64.eqb (Cached.isUp c') zero); cbn;
        rewrite ?Hu', ?Hw', ?Hm', ?Hu, ?Hw, ?Hm; [exact Hone | exact Hnames]. }
    destruct autoScrape.
    + rewrite Collect_auto. apply Hscrape; reflexivity.
    + rewrite Collect_sync. cbn [trace fst]. rewrite sent_app, RequestWeight_cases.
      destruct (http_NewRequest w "GET" _) as [req | err];
        [destruct (client_Do w req) as [resp | err] |];
        cbn [trace result fst snd app sent omap];
        [apply Hscrape; reflexivity | apply Hscrape; reflexivity | constructor].
Qed.

Lemma collector_series_witness :
  fqName <$> Stateless.Describe (Stateless.NewCollector "https://api.binance.com")
  = ["binance_up"; "binance_weight_used"; "binance_weight_used_1m"]
  /\ fqName <$> Cached.Describe Sample.warm
     = ["binance_up"; "binance_weight_used"; "binance_weight_used_1m"]
  /\ NoDup (fqName <$> (desc <$> sent (trace
              (Stateless.Collect Sample.five_seven
                 (Stateless.NewCollector "https://api.binance.com")))))
  /\ NoDup (fqName <$> (desc <$> sent (trace
              (Cached.Collect false Sample.five_seven Sample.warm)))).
Proof.
  apply (collector_series "https://api.binance.com" false Sample.five_seven Sample.warm).
  unfold alike. simpl. repeat split.
Defined.

(** ** Runs of the second program *)

Lemma result_bind {A B} (p : prog A) (k : A -> prog B) :
  result (p ≫= k)
  = match result p with
    | Returned a => result (k a)
    | Exited n => Exited n
    end.
Proof. unfold mbind, prog_bind, result. destruct p.2; reflexivity. Qed.

Lemma trace_bind {A B} (p : prog A) (k : A -> prog B) :
  trace (p ≫= k)
  = (trace p ++ match result p with
                | Returned a => trace (k a)
                | Exited _ => []
                end)%list.
Proof.
  unfold mbind, prog_bind, result, trace.
  destruct p.2; cbn; rewrite ?app_nil_r; reflexivity.
Qed.

Lemma UpdateMetrics_probes (c : Cached.WeightCollector) :
  probes (trace (Cached.UpdateMetrics c)) = [].
Proof.
  unfold Cached.UpdateMetrics. destruct (Float64.eqb (Cached.isUp c) zero); reflexivity.
Qed.

Lemma UpdateMetrics_closes (c : Cached.WeightCollector) :
  closes (trace (Cached.UpdateMetrics c)) = 0%nat.
Proof.
  unfold Cached.UpdateMetrics. destruct (Float64.eqb (Cached.isUp c) zero); reflexivity.
Qed.

(** What one action leaves: the collector as it was if the action does not
    probe, and what [RequestWeight] leaves if it does. *)
Lemma step_result (autoScrape : bool) (c : Cached.WeightCollector) (a : Cached.action) :
  result (Cached.step autoScrape c a)
  = match a with
    | Cached.Tick w => result (Cached.RequestWeight w c)
    | Cached.Scrape w =>
        if autoScrape then Returned c else result (Cached.RequestWeight w c)
    end.
Proof.
  destruct a as [w | w]; [| reflexivity].
  destruct autoScrape; cbn [Cached.step].
  - rewrite Collect_auto. reflexivity.
  - rewrite Collect_sync. reflexivity.
Qed.

Lemma step_probes (autoScrape : bool) (c : Cached.WeightCollector) (a : Cached.action) :
  (length (probes (trace (Cached.step autoScrape c a)))
   <= if probing autoScrape a then 1 else 0)%nat.
Proof.
  assert (Hreq : forall w, (length (probes (trace (Cached.RequestWeight w c))) <= 1)%nat).
  { intros w. rewrite RequestWeight_cases.
    destruct (http_NewRequest w "GET" _) as [req | err];
      [destruct (client_Do w req) as [resp | err] |]; cbn; lia. }
  destruct a as [w | w]; cbn [Cached.step probing]; [| apply Hreq].
  destruct autoScrape; cbn [negb].
  - rewrite Collect_auto. cbn [trace fst]. fold (trace (Cached.UpdateMetrics c)).
    rewrite UpdateMetrics_probes. cbn. lia.
  - rewrite Collect_sync. cbn [trace fst]. rewrite probes_app, length_app.
    specialize (Hreq w).
    destruct (result (Cached.RequestWeight w c)) as [c' | n];
      cbv beta iota; rewrite ?UpdateMetrics_probes;
      change (probes []) with (@nil Request); cbn [length]; lia.
Qed.

(** X4.  Nothing is asked twice.  A scrape of [main.go] hands [client.Do]
    the one request [http.NewRequest] built for GET [endpoint + path], or
    none if that could not be built; and in any run of the second program
    the requests made are at most as many as the actions that probe: the
    firings of the task, and the scrapes when the flag is off. *)
Theorem one_request_per_probe
  (w : World) (cs : Stateless.WeightCollector)
  (autoScrape : bool) (cc : Cached.WeightCollector) (acts : list Cached.action) :
  probes (trace (Stateless.Collect w cs))
  = match http_NewRequest w "GET"
            (Stateless.binanceEndpoint cs +:+ Stateless.cheapRequest) with
    | inl req => [req]
    | inr _ => []
    end
  /\ (length (probes (trace (Cached.run autoScrape cc acts)))
      <= length (List.filter (probing autoScrape) acts))%nat.
Proof.
  split.
  - unfold Stateless.Collect. rewrite Hit_cases.
    destruct (http_NewRequest w "GET" _) as [req | err];
      [destruct (client_Do w req) as [resp | err] |]; reflexivity.
  - revert cc. induction acts as [| a acts IH]; intros cc; [cbn; lia |].
    cbn [Cached.run List.filter]. rewrite trace_bind, probes_app, length_app.
    pose proof (step_probes autoScrape cc a) as Hstep.
    destruct (result (Cached.step autoScrape cc a)) as [c' | n];
      [specialize (IH c') | change (probes []) with (@nil Request)];
      destruct (probing autoScrape a); cbv beta iota in *; cbn [length] in *; lia.
Qed.

(** X5.  [main.go] never closes the body of a response, answered or not.
    The second program closes it once for every answered probe, and a probe
    that was not answered closes nothing. *)
Theorem body_closed_once
  (w : World) (cs : Stateless.WeightCollector) (cc : Cached.WeightCollector) :
  closes (trace (Stateless.Collect w cs)) = 0%nat
  /\ closes (trace (Cached.RequestWeight w cc))
     = match http_NewRequest w "GET"
               (Cached.binanceEndpoint cc +:+ Cached.cheapRequest) with
       | inl req => match client_Do w req with inl _ => 1%nat | inr _ => 0%nat end
       | inr _ => 0%nat
       end
  /\ closes (trace (Cached.Collect false w cc)) = closes (trace (Cached.RequestWeight w cc))
  /\ closes (trace (Cached.Collect true w cc)) = 0%nat.
Proof.
  split; [| split; [| split]].
  - unfold Stateless.Collect. rewrite Hit_cases.
    destruct (http_NewRequest w "GET" _) as [req | err];
      [destruct (client_Do w req) as [resp | err] |]; reflexivity.
  - rewrite RequestWeight_cases.
    destruct (http_NewRequest w "GET" _) as [req | err];
      [destruct (client_Do w req) as [resp | err] |]; reflexivity.
  - rewrite Collect_sync. cbn [trace fst]. rewrite closes_app.
    destruct (result (Cached.RequestWeight w cc)) as [c' | n];
      rewrite ?UpdateMetrics_closes; cbn; lia.
  - rewrite Collect_auto. apply UpdateMetrics_closes.
Qed.

Lemma alike_refl (c : Cached.WeightCollector) : alike c c.
Proof. repeat split. Qed.

Lemma alike_trans (c1 c2 c3 : Cached.WeightCollector) :
  alike c1 c2 -> alike c2 c3 -> alike c1 c3.
Proof.
  intros (H1 & H2 & H3 & H4) (K1 & K2 & K3 & K4).
  repeat split; congruence.
Qed.

(** A probe leaves a flag in [isUp] and touches no descriptor. *)
Lemma RequestWeight_keeps (w : World) (c c' : Cached.WeightCollector) :
  result (Cached.RequestWeight w c) = Returned c' ->
  flag_like (Cached.isUp c') /\ alike c' c.
Proof.
  rewrite RequestWeight_cases.
  destruct (http_NewRequest w "GET" _) as [req | err];
    [destruct (client_Do w req) as [resp | err] |]; cbn [result snd]; intros H.
  - injection H as <-. split; [right; reflexivity | repeat split].
  - injection H as <-. split; [left; reflexivity | repeat split].
  - discriminate H.
Qed.

Lemma step_keeps (autoScrape : bool) (a : Cached.action) (c c' : Cached.WeightCollector) :
  flag_like (Cached.isUp c) ->
  result (Cached.step autoScrape c a) = Returned c' ->
  flag_like (Cached.isUp c') /\ alike c' c.
Proof.
  intros Hflag. rewrite step_result.
  destruct a as [w | w]; [destruct autoScrape |].
  - intros H. injection H as <-. split; [exact Hflag | apply alike_refl].
  - apply RequestWeight_keeps.
  - apply RequestWeight_keeps.
Qed.

(** X6.  Over any run of the second program, in either mode, [isUp] stays a
    flag, 0 or 1, and the descriptors and the endpoint stay what they were;
    so the [up] gauge of a scrape is [isUp] itself. *)
Theorem cached_run_invariant
  (autoScrape : bool) (acts : list Cached.action) (c c' : Cached.WeightCollector)
  (Hflag : flag_like (Cached.isUp c))
  (Hrun : result (Cached.run autoScrape c acts) = Returned c') :
  flag_like (Cached.isUp c')
  /\ alike c' c
  /\ head (sent (trace (Cached.UpdateMetrics c')))
     = Some (gauge (Cached.up c) (Cached.isUp c')).
Proof.
  assert (Hinv : flag_like (Cached.isUp c') /\ alike c' c).
  { revert c Hflag Hrun. induction acts as [| a acts IH]; intros c Hflag Hrun.
    - injection Hrun as <-. split; [exact Hflag | apply alike_refl].
    - cbn [Cached.run] in Hrun. rewrite result_bind in Hrun.
      destruct (result (Cached.step autoScrape c a)) as [c1 | n] eqn:Hstep;
        [| discriminate Hrun].
      destruct (step_keeps autoScrape a c c1 Hflag Hstep) as [Hflag1 Halike1].
      destruct (IH c1 Hflag1 Hrun) as [Hflag' Halike'].
      split; [exact Hflag' | exact (alike_trans _ _ _ Halike' Halike1)]. }
  destruct Hinv as [Hflag' Halike]. split; [exact Hflag' |]. split; [exact Halike |].
  destruct Halike as (Hu & _). rewrite UpdateMetrics_sent, <- Hu.
  destruct Hflag' as [-> | ->]; reflexivity.
Qed.

Lemma cached_run_invariant_witness :
  flag_like (Cached.isUp
               (Cached.set_isUp zero
                  (Cached.set_lastWeight (strconv.ParseFloat "7").1
                     (Cached.set_isUp one Sample.cold))))
  /\ alike (Cached.set_isUp zero
             (Cached.set_lastWeight (strconv.ParseFloat "7").1
                (Cached.set_isUp one Sample.cold))) Sample.cold
  /\ head (sent (trace (Cached.UpdateMetrics
                          (Cached.set_isUp zero
                             (Cached.set_lastWeight (strconv.ParseFloat "7").1
                                (Cached.set_isUp one Sample.cold))))))
     = Some (gauge (Cached.up Sample.cold)
               (Cached.isUp
                  (Cached.set_isUp zero
                     (Cached.set_lastWeight (strconv.ParseFloat "7").1
                        (Cached.set_isUp one Sample.cold))))).
Proof.
  apply (cached_run_invariant true
           [Cached.Tick Sample.five_seven; Cached.Scrape Sample.refusing;
            Cached.Tick Sample.refusing; Cached.Scrape Sample.five_seven]
           Sample.cold).
  - left. reflexivity.
  - vm_compute. reflexivity.
Defined.

(** X11.  Under [-auto-scrape] the scrapes of a run leave no mark: the
    collector after the run is the one the firings of the task alone would
    have left, and the process is gone in the one exactly when it is in the
    other. *)
Theorem scrapes_leave_no_mark (c : Cached.WeightCollector) (acts : list Cached.action) :
  result (Cached.run true c acts) = result (Cached.run true c (List.filter is_tick acts)).
Proof.
  revert c. induction acts as [| a acts IH]; intros c; [reflexivity |].
  cbn [Cached.run List.filter]. rewrite result_bind, step_result.
  destruct a as [w | w]; cbn [is_tick].
  - apply IH.
  - cbn [Cached.run]. rewrite result_bind. cbn [Cached.step].
    destruct (result (Cached.RequestWeight w c)) as [c' | n]; [apply IH | reflexivity].
Qed.

(** ** What a scrape depends on *)

(** X7.  Without [-auto-scrape] nothing a scrape shows comes from before the
    scrape: two collectors built alike, whatever weight and flag they hold,
    run the same trace in the same world (the same log lines, request and
    gauges), and what they hold afterwards has the same flag. *)
Theorem sync_scrape_is_fresh
  (w : World) (c1 c2 : Cached.WeightCollector) (Halike : alike c1 c2) :
  trace (Cached.Collect false w c1) = trace (Cached.Collect false w c2)
  /\ match result (Cached.Collect false w c1), result (Cached.Collect false w c2) with
     | Returned c1', Returned c2' => alike c1' c2' /\ Cached.isUp c1' = Cached.isUp c2'
     | Exited n1, Exited n2 => n1 = n2
     | _, _ => False
     end.
Proof.
  destruct Halike as (Hu & Hw & Hm & He).
  rewrite !Collect_sync, !RequestWeight_cases. cbn [trace result fst snd].
  rewrite He.
  destruct (http_NewRequest w "GET" _) as [req | err];
    [destruct (client_Do w req) as [resp | err] |]; cbn [trace result fst snd].
  - rewrite !UpdateMetrics_up by reflexivity. cbn.
    rewrite Hu, Hw, Hm. repeat split; assumption.
  - rewrite !UpdateMetrics_down by reflexivity. cbn.
    rewrite Hu. repeat split; assumption.
  - repeat split.
Qed.

Lemma sync_scrape_is_fresh_witness :
  trace (Cached.Collect false Sample.five_seven Sample.cold)
  = trace (Cached.Collect false Sample.five_seven Sample.warm)
  /\ match result (Cached.Collect false Sample.five_seven Sample.cold),
           result (Cached.Collect false Sample.five_seven Sample.warm) with
     | Returned c1', Returned c2' => alike c1' c2' /\ Cached.isUp c1' = Cached.isUp c2'
     | Exited n1, Exited n2 => n1 = n2
     | _, _ => False
     end.
Proof.
  apply (sync_scrape_is_fresh Sample.five_seven Sample.cold Sample.warm).
  unfold alike. simpl. repeat split.
Defined.

(** X8.  The two programs side by side, scraped in the same world with the
    flag off.  Built with the same descriptors, and given the same outcome
    for their requests, they send the same [up] gauge and the same
    [weight_used_1m] gauge; the lists they send differ at most in the second
    place, [weight_used]. *)
Theorem programs_agree_but_for_weight_used
  (w : World) (cs : Stateless.WeightCollector) (cc : Cached.WeightCollector)
  (reqs reqc : Request)
  (Hup : Stateless.up cs = Cached.up cc)
  (Hminute : Stateless.weightUsedMinute cs = Cached.weightUsedMinute cc)
  (Hs : http_NewRequest w "GET"
          (Stateless.binanceEndpoint cs +:+ Stateless.cheapRequest) = inl reqs)
  (Hc : http_NewRequest w "GET"
          (Cached.binanceEndpoint cc +:+ Cached.cheapRequest) = inl reqc)
  (Hsame : client_Do w reqs = client_Do w reqc) :
  delete 1%nat (sent (trace (Stateless.Collect w cs)))
  = delete 1%nat (sent (trace (Cached.Collect false w cc)))
  /\ length (sent (trace (Stateless.Collect w cs)))
     = length (sent (trace (Cached.Collect false w cc))).
Proof.
  unfold Stateless.Collect.
  rewrite Collect_sync, Hit_cases, RequestWeight_cases, Hs, Hc, <- Hsame.
  cbn [trace result fst snd].
  destruct (client_Do w reqs) as [resp | err]; cbn [trace result fst snd].
  - rewrite UpdateMetrics_up by reflexivity. cbn. rewrite Hup, Hminute. split; reflexivity.
  - rewrite UpdateMetrics_down by reflexivity. cbn. rewrite Hup. split; reflexivity.
Qed.

Lemma programs_agree_but_for_weight_used_witness :
  delete 1%nat (sent (trace (Stateless.Collect Sample.five_seven Sample.fresh)))
  = delete 1%nat (sent (trace (Cached.Collect false Sample.five_seven Sample.warm)))
  /\ length (sent (trace (Stateless.Collect Sample.five_seven Sample.fresh)))
     = length (sent (trace (Cached.Collect false Sample.five_seven Sample.warm))).
Proof.
  apply (programs_agree_but_for_weight_used Sample.five_seven Sample.fresh Sample.warm
           Sample.klines Sample.ping); reflexivity.
Defined.

(** X9.  When, besides, the answer carries the same value in both headers,
    as the comment in [NewCollector] says the upstream does, or when there
    is no answer, the two programs send the same gauges. *)
Theorem programs_agree
  (w : World) (cs : Stateless.WeightCollector) (cc : Cached.WeightCollector)
  (reqs reqc : Request)
  (Hup : Stateless.up cs = Cached.up cc)
  (Hused : Stateless.weightUsed cs = Cached.weightUsed cc)
  (Hminute : Stateless.weightUsedMinute cs = Cached.weightUsedMinute cc)
  (Hs : http_NewRequest w "GET"
          (Stateless.binanceEndpoint cs +:+ Stateless.cheapRequest) = inl reqs)
  (Hc : http_NewRequest w "GET"
          (Cached.binanceEndpoint cc +:+ Cached.cheapRequest) = inl reqc)
  (Hsame : client_Do w reqs = client_Do w reqc)
  (Hequal : match client_Do w reqs with
            | inl resp => Get (Header resp) "x-mbx-used-weight"
                          = Get (Header resp) "x-mbx-used-weight-1m"
            | inr _ => True
            end) :
  sent (trace (Stateless.Collect w cs)) = sent (trace (Cached.Collect false w cc)).
Proof.
  unfold Stateless.Collect.
  rewrite Collect_sync, Hit_cases, RequestWeight_cases, Hs, Hc, <- Hsame.
  cbn [trace result fst snd].
  destruct (client_Do w reqs) as [resp | err]; cbn [trace result fst snd].
  - rewrite UpdateMetrics_up by reflexivity. cbn.
    rewrite Hup, Hused, Hminute, Hequal. reflexivity.
  - rewrite UpdateMetrics_down by reflexivity. cbn. rewrite Hup. reflexivity.
Qed.

Lemma programs_agree_witness :
  sent (trace (Stateless.Collect (Sample.answering 200 (Sample.weights "7" "7")) Sample.fresh))
  = sent (trace (Cached.Collect false (Sample.answering 200 (Sample.weights "7" "7"))
                   Sample.warm)).
Proof.
  apply (programs_agree (Sample.answering 200 (Sample.weights "7" "7"))
           Sample.fresh Sample.warm Sample.klines Sample.ping); reflexivity.
Defined.

(** X10.  Of an answer [main.go] reads two things, the first value of each
    of the two headers: answers that agree on them give the same scrape,
    whatever their status, body, other headers and further values. *)
Theorem stateless_reads_two_headers
  (w : World) (c : Stateless.WeightCollector) (resp1 resp2 : Response)
  (Hused : Get (Header resp1) "x-mbx-used-weight" = Get (Header resp2) "x-mbx-used-weight")
  (Hminute : Get (Header resp1) "x-mbx-used-weight-1m"
             = Get (Header resp2) "x-mbx-used-weight-1m") :
  Stateless.Collect (answered_with resp1 w) c = Stateless.Collect (answered_with resp2 w) c.
Proof.
  unfold Stateless.Collect. rewrite !Hit_cases. cbn [answered_with http_NewRequest client_Do].
  destruct (http_NewRequest w "GET" _) as [req | err]; [| reflexivity].
  rewrite Hused, Hminute. reflexivity.
Qed.

Lemma stateless_reads_two_headers_witness :
  Stateless.Collect
    (answered_with {| StatusCode := 200; Header := Sample.weights "5" "7"; Body := "{}" |}
       Sample.refusing) Sample.fresh
  = Stateless.Collect
      (answered_with
         {| StatusCode := 429;
            Header := http.Add "Retry-After" "30"
                        (http.Add "x-mbx-used-weight" "6" (Sample.weights "5" "7"));
            Body := "Too many requests" |}
         Sample.refusing) Sample.fresh.
Proof.
  apply (stateless_reads_two_headers Sample.refusing Sample.fresh
           {| StatusCode := 200; Header := Sample.weights "5" "7"; Body := "{}" |}
           {| StatusCode := 429;
              Header := http.Add "Retry-After" "30"
                          (http.Add "x-mbx-used-weight" "6" (Sample.weights "5" "7"));
              Body := "Too many requests" |});
    vm_compute; reflexivity.
Defined.

(** X12.  Of an answer the second program reads one thing, the first value
    of [x-mbx-used-weight-1m]: answers that agree on it leave the same
    collector and the same trace, in a probe and in a scrape that probes. *)
Theorem cached_reads_one_header
  (w : World) (c : Cached.WeightCollector) (resp1 resp2 : Response)
  (Hminute : Get (Header resp1) "x-mbx-used-weight-1m"
             = Get (Header resp2) "x-mbx-used-weight-1m") :
  Cached.RequestWeight (answered_with resp1 w) c
  = Cached.RequestWeight (answered_with resp2 w) c
  /\ Cached.Collect false (answered_with resp1 w) c
     = Cached.Collect false (answered_with resp2 w) c.
Proof.
  assert (Hprobe : Cached.RequestWeight (answered_with resp1 w) c
                   = Cached.RequestWeight (answered_with resp2 w) c).
  { rewrite !RequestWeight_cases.
    cbn [answered_with http_NewRequest client_Do time_Now].
    destruct (http_NewRequest w "GET" _) as [req | err]; [| reflexivity].
    rewrite Hminute. reflexivity. }
  split; [exact Hprobe |]. rewrite !Collect_sync, Hprobe. reflexivity.
Qed.

Lemma cached_reads_one_header_witness :
  Cached.RequestWeight
    (answered_with {| StatusCode := 200; Header := Sample.weights "5" "7"; Body := "{}" |}
       Sample.refusing) Sample.warm
  = Cached.RequestWeight
      (answered_with
         {| StatusCode := 418;
            Header := http.Add "X-MBX-USED-WEIGHT-1M" "9" (Sample.weights "1e400" "7");
            Body := EmptyString |}
         Sample.refusing) Sample.warm
  /\ Cached.Collect false
       (answered_with {| StatusCode := 200; Header := Sample.weights "5" "7"; Body := "{}" |}
          Sample.refusing) Sample.warm
     = Cached.Collect false
         (answered_with
            {| StatusCode := 418;
               Header := http.Add "X-MBX-USED-WEIGHT-1M" "9" (Sample.weights "1e400" "7");
               Body := EmptyString |}
            Sample.refusing) Sample.warm.
Proof.
  apply (cached_reads_one_header Sample.refusing Sample.warm
           {| StatusCode := 200; Header := Sample.weights "5" "7"; Body := "{}" |}
           {| StatusCode := 418;
              Header := http.Add "X-MBX-USED-WEIGHT-1M" "9" (Sample.weights "1e400" "7");
              Body := EmptyString |});
    vm_compute; reflexivity.
Defined.

(** X13.  The two modes are one behaviour cut in two: a firing of the task
    followed by a scrape under [-auto-scrape] does what a single scrape
    without the flag does in the world of the firing: the same trace, the
    same collector, the same exit. *)
Theorem tick_then_scrape (w w' : World) (c : Cached.WeightCollector) :
  Cached.run true c [Cached.Tick w; Cached.Scrape w'] = Cached.Collect false w c.
Proof.
  rewrite Collect_sync. cbn [Cached.run Cached.step].
  apply injective_projections.
  - change (trace (Cached.RequestWeight w c
                   ≫= (fun c1 => Cached.Collect true w' c1 ≫= (fun c2 => mret c2)))
            = (trace (Cached.RequestWeight w c)
               ++ match result (Cached.RequestWeight w c) with
                  | Returned c' => trace (Cached.UpdateMetrics c')
                  | Exited _ => []
                  end)%list).
    rewrite trace_bind. f_equal.
    destruct (result (Cached.RequestWeight w c)) as [c1 | n]; [| reflexivity].
    rewrite trace_bind, Collect_auto. cbn. apply app_nil_r.
  - change (result (Cached.RequestWeight w c
                    ≫= (fun c1 => Cached.Collect true w' c1 ≫= (fun c2 => mret c2)))
            = result (Cached.RequestWeight w c)).
    rewrite result_bind.
    destruct (result (Cached.RequestWeight w c)) as [c1 | n]; [| reflexivity].
    rewrite result_bind, Collect_auto. reflexivity.
Qed.
